(** * memory_technique.hpp: storage durations and allocation pairings

    A model of [src/subjects/memory_pointers/memory_technique.hpp]: the five
    namespace-scope variables, the class [ResourceManager] and the routine
    [memoryAllocationDemo].  The routine is embedded statement by statement
    in a state-and-trace monad over an object store; the class declaration
    is kept as data so that the access rules it relies on can be evaluated. *)

From Stdlib Require Import ZArith Lia List.
From stdpp Require Import base numbers option list strings gmap.
Import ListNotations.

Local Open Scope Z_scope.

(** ** The type [int] *)

Module Int.

(** [int] is 32 bits wide on the ABIs the header is written for. *)
Definition width : Z := 32.
Definition INT_MAX : Z := 2147483647.
Definition INT_MIN : Z := -2147483648.
Definition size_of : N := 4.

(** Two's-complement reduction of a mathematical integer to [int].  ISO
    C++ leaves signed overflow undefined; this is what the targets do. *)
Definition wrap (z : Z) : Z := (z - INT_MIN) mod 2 ^ width + INT_MIN.

(** [x++] on an [int] object: the stored value afterwards. *)
Definition incr (x : Z) : Z := wrap (x + 1).

End Int.

(** ** Namespace-scope declarations (lines 7-24) *)

Inductive global_name :=
| globalVariable
| fileLocalVariable
| externallyDefinedVariable
| hardwareRegister
| immutableGlobal.

Record qualifiers := Qualifiers {
  q_static : bool;
  q_extern : bool;
  q_volatile : bool;
  q_const : bool
}.

(** The specifiers each declaration carries in the header. *)
Definition declared (g : global_name) : qualifiers :=
  match g with
  | globalVariable            => Qualifiers false false false false
  | fileLocalVariable         => Qualifiers true  false false false
  | externallyDefinedVariable => Qualifiers false true  false false
  | hardwareRegister          => Qualifiers false false true  false
  | immutableGlobal           => Qualifiers false false false true
  end.

(** The initializer of each declaration; the [extern] one has none here. *)
Definition initializer (g : global_name) : option Z :=
  match g with
  | globalVariable            => Some 1
  | fileLocalVariable         => Some 2
  | externallyDefinedVariable => None
  | hardwareRegister          => Some 4
  | immutableGlobal           => Some 5
  end.

(** An assignment expression whose left operand names [g] is well-formed
    only if [g] is a modifiable lvalue, that is, not const-qualified. *)
Definition assignable (g : global_name) : bool := negb (q_const (declared g)).

(** ** The class [ResourceManager] (lines 26-47) *)

Inductive access := Private | Protected | Public.

Inductive class_key := KClass | KStruct.

Inductive member :=
| AccessSpecifier (a : access)
| StaticDataMember (name : string)
| DataMember (name : string) (is_const : bool) (default_init : option Z)
| Constructor (arity : nat).

Record class_decl := ClassDecl {
  c_key : class_key;
  c_members : list member;
  c_friends : list string
}.

Definition ResourceManager_decl : class_decl :=
  ClassDecl KClass
    [ StaticDataMember "sharedInstanceCounter";
      DataMember "instanceId" true (Some 5);
      AccessSpecifier Protected;
      DataMember "resourceHandle" false None;
      AccessSpecifier Public;
      Constructor 1;
      AccessSpecifier Private;
      Constructor 0 ]
    [].

(** Members of a [class] are private until the first access specifier,
    those of a [struct] public. *)
Definition default_access (k : class_key) : access :=
  match k with KClass => Private | KStruct => Public end.

(** Every member paired with the access in force where it is declared. *)
Fixpoint with_access (cur : access) (ms : list member) : list (access * member) :=
  match ms with
  | [] => []
  | AccessSpecifier a :: ms' => with_access a ms'
  | m :: ms' => (cur, m) :: with_access cur ms'
  end.

Definition members_of (c : class_decl) : list (access * member) :=
  with_access (default_access (c_key c)) (c_members c).

Definition is_constructor (n : nat) (m : member) : bool :=
  match m with Constructor k => Nat.eqb k n | _ => false end.

(** Access of the user-declared constructor taking [n] arguments. *)
Definition constructor_access (c : class_decl) (n : nat) : option access :=
  fst <$> List.find (fun am => is_constructor n (snd am)) (members_of c).

Definition public_constructors (c : class_decl) : list nat :=
  omap (fun am => match am with
                  | (Public, Constructor n) => Some n
                  | _ => None
                  end) (members_of c).

(** Where an expression that names a member appears. *)
Inductive site :=
| InMember                       (* a member function of the class *)
| InDerived                      (* a member of a derived class *)
| InFunction (name : string).    (* a namespace-scope function *)

Definition accessible (c : class_decl) (ctx : site) (a : access) : bool :=
  match ctx, a with
  | _, Public => true
  | InMember, _ => true
  | InDerived, Protected => true
  | InDerived, Private => false
  | InFunction f, _ => bool_decide (f ∈ c_friends c)
  end.

(** The expressions of the header that create [ResourceManager] objects. *)
Inductive creation :=
| NewSingle (nargs : nat)        (* new T(args)        *)
| NewArray (count : N)           (* new T[count]       *)
| MallocCast (bytes : N)         (* static_cast<T*>(malloc(bytes)) *)
| Automatic (nargs : nat).       (* T obj(args);       *)

(** The constructor a creation expression names: [new T[n]] default
    initializes every element, [malloc] runs no constructor. *)
Definition constructor_needed (e : creation) : option nat :=
  match e with
  | NewSingle n | Automatic n => Some n
  | NewArray _ => Some 0%nat
  | MallocCast _ => None
  end.

Inductive verdict := WellFormed | IllFormed.

(** The compile-time check of a creation expression: the constructor it
    names must be declared and accessible where the expression appears. *)
Definition check_creation (c : class_decl) (ctx : site) (e : creation) : verdict :=
  match constructor_needed e with
  | None => WellFormed
  | Some n =>
      match constructor_access c n with
      | Some a => if accessible c ctx a then WellFormed else IllFormed
      | None => IllFormed
      end
  end.

(** The objects themselves: the two non-static data members.  A member
    that no initializer reached holds an indeterminate value, [None]. *)
Record ResourceManager := RM {
  instanceId : option Z;
  resourceHandle : option Z
}.

Definition sizeof_ResourceManager : N := 2 * Int.size_of.

Inductive field := f_instanceId | f_resourceHandle.

Definition get_field (f : field) (o : ResourceManager) : option Z :=
  match f with
  | f_instanceId => instanceId o
  | f_resourceHandle => resourceHandle o
  end.

(** What a constructor definition contributes: the member initializers it
    supplies.  A member without one takes its default member initializer
    from the class declaration, if it has one. *)
Record ctor_inits := CtorInits {
  init_instanceId : option Z;
  init_resourceHandle : option Z
}.

Definition default_member_init (c : class_decl) (name : string) : option Z :=
  match List.find (fun m => match m with
                            | DataMember n _ _ => bool_decide (n = name)
                            | _ => false
                            end) (c_members c) with
  | Some (DataMember _ _ d) => d
  | _ => None
  end.

Definition or_else (a b : option Z) : option Z :=
  match a with Some _ => a | None => b end.

Definition construct (i : ctor_inits) : ResourceManager :=
  RM (or_else (init_instanceId i)
              (default_member_init ResourceManager_decl "instanceId"))
     (or_else (init_resourceHandle i)
              (default_member_init ResourceManager_decl "resourceHandle")).

(** ** The object store *)

Definition addr := positive.

(** A pointer value: [None] is the null pointer. *)
Definition pointer := option addr.

(** How a block of dynamic storage was obtained: a new-expression, an
    array new-expression, [malloc], or the allocator of the standard
    library on behalf of a smart pointer. *)
Inductive alloc_form := ByNew | ByNewArray | ByMalloc | ByAllocator.

(** How it is given back: [delete], [delete[]], [free], or the library's
    own deallocation. *)
Inductive release_form := Delete | DeleteArray | Free | Deallocate.

Definition matching (f : alloc_form) (r : release_form) : bool :=
  match f, r with
  | ByNew, Delete | ByNewArray, DeleteArray
  | ByMalloc, Free | ByAllocator, Deallocate => true
  | _, _ => false
  end.

Inductive storage :=
| Dynamic (f : alloc_form)       (* obtained from the free store *)
| Elsewhere.                     (* automatic or static storage of a caller *)

Inductive contents :=
| CInt (v : Z)                               (* an int object *)
| CObject (o : ResourceManager)              (* one ResourceManager *)
| CArray (os : list ResourceManager)         (* an array of them *)
| CSharedInt (use_count : N) (v : Z)         (* make_shared: int and control block *)
| CControl (use_count : N) (managed : pointer) (* control block of an adopted pointer *)
| CRaw (bytes : N).                          (* storage holding no object *)

Record block := Block {
  b_storage : storage;
  b_contents : contents
}.

(** ** Program state *)

Record state := State {
  v_globalVariable : Z;
  v_fileLocalVariable : Z;
  v_externallyDefinedVariable : Z;
  v_hardwareRegister : Z;
  v_immutableGlobal : Z;
  sharedInstanceCounter : Z;     (* ResourceManager::sharedInstanceCounter *)
  persistentCounter : Z;         (* the static local of memoryAllocationDemo *)
  heap : gmap addr block
}.

Definition read_global (g : global_name) (s : state) : Z :=
  match g with
  | globalVariable => v_globalVariable s
  | fileLocalVariable => v_fileLocalVariable s
  | externallyDefinedVariable => v_externallyDefinedVariable s
  | hardwareRegister => v_hardwareRegister s
  | immutableGlobal => v_immutableGlobal s
  end.

Definition write_global (g : global_name) (v : Z) (s : state) : state :=
  match s with
  | State g1 g2 g3 g4 g5 sh pc h =>
      match g with
      | globalVariable => State v g2 g3 g4 g5 sh pc h
      | fileLocalVariable => State g1 v g3 g4 g5 sh pc h
      | externallyDefinedVariable => State g1 g2 v g4 g5 sh pc h
      | hardwareRegister => State g1 g2 g3 v g5 sh pc h
      | immutableGlobal => State g1 g2 g3 g4 v sh pc h
      end
  end.

Definition set_heap (h : gmap addr block) (s : state) : state :=
  match s with
  | State g1 g2 g3 g4 g5 sh pc _ => State g1 g2 g3 g4 g5 sh pc h
  end.

Definition set_persistentCounter (v : Z) (s : state) : state :=
  match s with
  | State g1 g2 g3 g4 g5 sh _ h => State g1 g2 g3 g4 g5 sh v h
  end.

(** The state before the first call of the routine: every object of
    static storage duration with a constant initializer holds it, the
    static local [persistentCounter] (line 55) included.  [ext] is the
    value of the variable defined in another translation unit, [shared]
    that of the static data member, whose definition the header does not
    contain, and [objects] what the client has put in the store. *)
Definition initial_state (ext shared : Z) (objects : gmap addr block) : state :=
  State (default 0 (initializer globalVariable))
        (default 0 (initializer fileLocalVariable))
        ext
        (default 0 (initializer hardwareRegister))
        (default 0 (initializer immutableGlobal))
        shared
        6
        objects.

(** ** Observable steps *)

Inductive event :=
| EvCreate (e : creation)                  (* a ResourceManager creation expression *)
| EvAcquire (f : alloc_form) (a : addr)
| EvRelease (r : release_form) (a : addr)
| EvLoad (a : addr)                        (* read of an int through a pointer or reference *)
| EvStore (a : addr) (v : Z)               (* write of an int through a pointer or reference *)
| EvField (a : addr) (i : nat) (f : field) (* read of a data member *)
| EvGlobalWrite (g : global_name) (v : Z).

Inductive undefined :=
| NullDereference
| InvalidPointer (a : addr)               (* no live object there *)
| NotDynamic (a : addr)                   (* release of storage not from the free store *)
| MismatchedRelease (f : alloc_form) (r : release_form)
| IndeterminateValue (a : addr)
| NoSuchObject (a : addr)
| OutOfBounds
| ModifiesConst (g : global_name).

(** ** The monad: state, trace, undefined behaviour *)

Inductive outcome (A : Type) :=
| Ok (x : A) (s : state) (tr : list event)
| Undefined (u : undefined).
Arguments Ok {A} x s tr.
Arguments Undefined {A} u.

Definition M (A : Type) : Type := state -> outcome A.

Definition ret {A} (x : A) : M A := fun s => Ok x s [].

Definition bind {A B} (m : M A) (k : A -> M B) : M B :=
  fun s =>
    match m s with
    | Ok x s1 tr1 =>
        match k x s1 with
        | Ok y s2 tr2 => Ok y s2 (tr1 ++ tr2)
        | Undefined u => Undefined u
        end
    | Undefined u => Undefined u
    end.

Notation "'let*' x ':=' m 'in' k" := (bind m (fun x => k))
  (at level 10, x name, m at level 100, k at level 200).

Definition emit (e : event) : M unit := fun s => Ok tt s [e].

Definition undefined_behaviour {A} (u : undefined) : M A := fun _ => Undefined u.

Definition get_heap : M (gmap addr block) := fun s => Ok (heap s) s [].

Definition put_heap (h : gmap addr block) : M unit := fun s => Ok tt (set_heap h s) [].

(** ** Acquiring and releasing storage *)

(** Storage for [c] at an address no live block occupies.  The free store
    is taken to be unbounded: [new] does not throw and [malloc] does not
    return null. *)
Definition allocate (f : alloc_form) (c : contents) : M addr :=
  fun s =>
    let a := fresh (dom (heap s)) in
    Ok a (set_heap (<[a := Block (Dynamic f) c]> (heap s)) s) [EvAcquire f a].

(** Giving storage back with release form [r].  A null pointer is a no-op
    for all three forms; anything but a live block obtained by the
    matching form is undefined. *)
Definition release (r : release_form) (p : pointer) : M unit :=
  fun s =>
    match p with
    | None => Ok tt s []
    | Some a =>
        match heap s !! a with
        | None => Undefined (InvalidPointer a)
        | Some (Block Elsewhere _) => Undefined (NotDynamic a)
        | Some (Block (Dynamic f) _) =>
            if matching f r
            then Ok tt (set_heap (delete a (heap s)) s) [EvRelease r a]
            else Undefined (MismatchedRelease f r)
        end
    end.

(** [delete p;], [delete[] p;] and [free(p);].  The destructors [delete]
    and [delete[]] run first are those of [int] and the implicit one of
    [ResourceManager]; neither does anything, so only the storage goes. *)
Definition delete_object (p : pointer) : M unit := release Delete p.
Definition delete_array (p : pointer) : M unit := release DeleteArray p.
Definition free (p : pointer) : M unit := release Free p.

(** [malloc(bytes)]: storage only, no object is created in it. *)
Definition malloc (bytes : N) : M pointer :=
  let* a := allocate ByMalloc (CRaw bytes) in ret (Some a).

(** [new int(v)] *)
Definition new_int (v : Z) : M pointer :=
  let* a := allocate ByNew (CInt v) in ret (Some a).

(** ** Access through pointers, references and members *)

Definition load (p : pointer) : M Z :=
  fun s =>
    match p with
    | None => Undefined NullDereference
    | Some a =>
        match heap s !! a with
        | Some (Block _ (CInt v)) => Ok v s [EvLoad a]
        | Some (Block _ (CRaw _)) => Undefined (IndeterminateValue a)
        | Some _ => Undefined (NoSuchObject a)
        | None => Undefined (InvalidPointer a)
        end
    end.

Definition store (p : pointer) (v : Z) : M unit :=
  fun s =>
    match p with
    | None => Undefined NullDereference
    | Some a =>
        match heap s !! a with
        | Some (Block st (CInt _)) =>
            Ok tt (set_heap (<[a := Block st (CInt v)]> (heap s)) s) [EvStore a v]
        | Some _ => Undefined (NoSuchObject a)
        | None => Undefined (InvalidPointer a)
        end
    end.

(** The [i]-th ResourceManager a block holds, if it holds any. *)
Definition object_at (c : contents) (i : nat) : option ResourceManager :=
  match c with
  | CObject o => if Nat.eqb i 0 then Some o else None
  | CArray os => os !! i
  | _ => None
  end.

(** [p[i].f]: reading a data member.  In storage that holds no object, or
    of a member no initializer reached, the read is undefined. *)
Definition read_field (p : pointer) (i : nat) (f : field) : M Z :=
  fun s =>
    match p with
    | None => Undefined NullDereference
    | Some a =>
        match heap s !! a with
        | None => Undefined (InvalidPointer a)
        | Some (Block _ (CRaw _)) => Undefined (IndeterminateValue a)
        | Some (Block _ c) =>
            match object_at c i with
            | None => Undefined (NoSuchObject a)
            | Some o =>
                match get_field f o with
                | Some v => Ok v s [EvField a i f]
                | None => Undefined (IndeterminateValue a)
                end
            end
        end
    end.

(** ** Smart pointers *)

Record shared_ptr := SharedPtr {
  sp_object : pointer;
  sp_control : addr
}.

(** [std::make_shared<int>(v)]: one allocation for object and control
    block, use count 1. *)
Definition make_shared_int (v : Z) : M shared_ptr :=
  let* a := allocate ByAllocator (CSharedInt 1 v) in ret (SharedPtr (Some a) a).

(** [std::shared_ptr<int>(p)]: a second allocation for the control block
    of an object that already exists. *)
Definition shared_ptr_adopt (p : pointer) : M shared_ptr :=
  let* c := allocate ByAllocator (CControl 1 p) in ret (SharedPtr p c).

(** [~shared_ptr]: drop one owner; the last one deletes the object and
    gives the control block back. *)
Definition shared_ptr_destroy (sp : shared_ptr) : M unit :=
  let* h := get_heap in
  match h !! sp_control sp with
  | Some (Block st (CSharedInt n v)) =>
      if (n <=? 1)%N
      then release Deallocate (Some (sp_control sp))
      else put_heap (<[sp_control sp := Block st (CSharedInt (n - 1) v)]> h)
  | Some (Block st (CControl n p)) =>
      if (n <=? 1)%N
      then let* _ := release Delete p in
           release Deallocate (Some (sp_control sp))
      else put_heap (<[sp_control sp := Block st (CControl (n - 1) p)]> h)
  | _ => undefined_behaviour (InvalidPointer (sp_control sp))
  end.

(** [std::make_unique<int>(v)] and [~unique_ptr]. *)
Definition make_unique_int (v : Z) : M addr := allocate ByNew (CInt v).

Definition unique_ptr_destroy (p : addr) : M unit := release Delete (Some p).

(** ** Automatic arrays *)

(** [T a[n] = { inits }]: the listed elements, then zeros up to [n]. *)
Definition array_init (n : nat) (inits : list Z) : list Z :=
  take n (inits ++ replicate (n - length inits) 0).

(** [int stackArray[3] = {0, 1};] (line 58) *)
Definition stackArray : list Z := array_init 3 [0; 1].

(** [a[i]] *)
Definition subscript (a : list Z) (i : nat) : M Z :=
  match a !! i with
  | Some v => ret v
  | None => undefined_behaviour OutOfBounds
  end.

(** ** The routine, over any definition of the two constructors *)

(** Arguments of one call of [memoryAllocationDemo]. *)
Record call := Call {
  stackCopyParam : Z;
  readOnlyDataPtr : pointer;
  fixedAddressPtr : pointer;
  referenceAlias : addr
}.

(** A step of a client program: an assignment to one of the namespace-scope
    variables, or a call of the routine. *)
Inductive action :=
| Assign (g : global_name) (v : Z)
| Invoke (c : call).

(** The compile-time check of a step. *)
Definition check_action (a : action) : verdict :=
  match a with
  | Assign g _ => if assignable g then WellFormed else IllFormed
  | Invoke _ => WellFormed
  end.

(** [g = v;] at run time.  Modifying a const object, however the write was
    smuggled past the compiler, is undefined. *)
Definition assign (g : global_name) (v : Z) : M unit :=
  fun s =>
    if q_const (declared g)
    then Undefined (ModifiesConst g)
    else Ok tt (write_global g (Int.wrap v) s) [EvGlobalWrite g (Int.wrap v)].

(** [persistentCounter++;] (line 97) *)
Definition increment_persistentCounter : M unit :=
  fun s => Ok tt (set_persistentCounter (Int.incr (persistentCounter s)) s) [].

Section Constructors.

(** The header declares both constructors and defines neither.  Their
    definitions are parameters: the member initializers of
    [ResourceManager(int handle)], as a function of [handle], and those
    of [ResourceManager()]. *)
Variable handle_constructor : Z -> ctor_inits.
Variable default_constructor : ctor_inits.

(** [new ResourceManager(handle)] *)
Definition new_ResourceManager (handle : Z) : M pointer :=
  let* _ := emit (EvCreate (NewSingle 1)) in
  let* a := allocate ByNew (CObject (construct (handle_constructor handle))) in
  ret (Some a).

(** [new ResourceManager[n]]: every element default-initialized. *)
Definition new_ResourceManager_array (n : N) : M pointer :=
  let* _ := emit (EvCreate (NewArray n)) in
  let* a := allocate ByNewArray
              (CArray (replicate (N.to_nat n) (construct default_constructor))) in
  ret (Some a).

(** [static_cast<ResourceManager*>(malloc(bytes))] *)
Definition malloc_ResourceManager (bytes : N) : M pointer :=
  let* _ := emit (EvCreate (MallocCast bytes)) in
  malloc bytes.

(** [ResourceManager obj(handle);] in automatic storage. *)
Definition automatic_ResourceManager (handle : Z) : M ResourceManager :=
  let* _ := emit (EvCreate (Automatic 1)) in
  ret (construct (handle_constructor handle)).

(** The destructor is the implicit one: it does nothing. *)
Definition destroy_ResourceManager (o : ResourceManager) : M unit := ret tt.

(** Lines 49-99.  The declaration of [persistentCounter] has no effect
    at run time (see [initial_state]) and [stackArray] is the constant
    above; the destructors of the locals run at the closing brace, after
    the return value is computed, in reverse order of declaration. *)
Definition memoryAllocationDemo (stackCopyParam : Z)
                                (readOnlyDataPtr : pointer)
                                (fixedAddressPtr : pointer)
                                (referenceAlias : addr) : M Z :=
  let* efficientSharedInt := make_shared_int 42 in
  let* adopted := new_int 24 in
  let* twoStepSharedInt := shared_ptr_adopt adopted in
  let* exclusiveOwnershipInt := make_unique_int 36 in
  let* singleHeapObject := new_ResourceManager 10 in
  let* heapObjectArray := new_ResourceManager_array 10 in
  let* uninitializedMemoryBlock :=
    malloc_ResourceManager (10 * sizeof_ResourceManager) in
  let* automaticObject := automatic_ResourceManager 20 in
  let* _ := delete_object singleHeapObject in
  let* _ := delete_array heapObjectArray in
  let* _ := free uninitializedMemoryBlock in
  let* _ := increment_persistentCounter in
  let* result := subscript stackArray 0 in
  let* _ := destroy_ResourceManager automaticObject in
  let* _ := unique_ptr_destroy exclusiveOwnershipInt in
  let* _ := shared_ptr_destroy twoStepSharedInt in
  let* _ := shared_ptr_destroy efficientSharedInt in
  ret result.

Definition invoke (c : call) : M Z :=
  memoryAllocationDemo (stackCopyParam c) (readOnlyDataPtr c)
                       (fixedAddressPtr c) (referenceAlias c).

(** [n] calls in a row, with the arguments listed. *)
Fixpoint invoke_all (cs : list call) : M unit :=
  match cs with
  | [] => ret tt
  | c :: cs' => let* _ := invoke c in invoke_all cs'
  end.

Definition perform (a : action) : M unit :=
  match a with
  | Assign g v => assign g v
  | Invoke c => let* _ := invoke c in ret tt
  end.

Fixpoint run (prog : list action) : M unit :=
  match prog with
  | [] => ret tt
  | a :: prog' => let* _ := perform a in run prog'
  end.

End Constructors.

(** Modelled from the spec: the definition of [ResourceManager(int)],
    which the header only declares.  The public
    constructor stores its argument in the handle and leaves the
    identifier to its default member initializer ("explicitly
    handle-initialized", "a per-instance immutable identifier fixed at
    construction"). *)
Definition spec_handle_constructor (handle : Z) : ctor_inits :=
  CtorInits None (Some handle).

(** Modelled from the spec: the definition of [ResourceManager()], about
    which the spec says only that it is inaccessible; it supplies no
    member initializer. *)
Definition spec_default_constructor : ctor_inits := CtorInits None None.

(** ** Reading a trace *)

(** The forms under which address [a] is acquired, and those under which
    it is released, in the order the trace has them. *)
Definition acquired_as (a : addr) (tr : list event) : list alloc_form :=
  omap (fun e => match e with
                 | EvAcquire f a' => if decide (a' = a) then Some f else None
                 | _ => None
                 end) tr.

Definition released_as (a : addr) (tr : list event) : list release_form :=
  omap (fun e => match e with
                 | EvRelease r a' => if decide (a' = a) then Some r else None
                 | _ => None
                 end) tr.

Definition creations (tr : list event) : list creation :=
  omap (fun e => match e with EvCreate c => Some c | _ => None end) tr.

(** Replaying the acquisitions and releases of a trace over the blocks
    [live] when it starts; [None] as soon as a release meets no live block
    or one obtained by another form. *)
Fixpoint outstanding (tr : list event) (live : gmap addr alloc_form)
  : option (gmap addr alloc_form) :=
  match tr with
  | [] => Some live
  | EvAcquire f a :: tr' =>
      match live !! a with
      | None => outstanding tr' (<[a := f]> live)
      | Some _ => None
      end
  | EvRelease r a :: tr' =>
      match live !! a with
      | Some f => if matching f r then outstanding tr' (delete a live) else None
      | None => None
      end
  | _ :: tr' => outstanding tr' live
  end.

(** An access to an object: a load or store through a pointer or
    reference, or a member read. *)
Definition accessed (e : event) : option addr :=
  match e with
  | EvLoad a | EvStore a _ | EvField a _ _ => Some a
  | _ => None
  end.

Definition accesses (tr : list event) : list addr := omap accessed tr.

(** The steps of one call of [memoryAllocationDemo], given the addresses
    of its seven blocks in the order they are obtained. *)
Definition demo_trace (efficient adopted control exclusive single array raw : addr)
  : list event :=
  [ EvAcquire ByAllocator efficient;
    EvAcquire ByNew adopted;
    EvAcquire ByAllocator control;
    EvAcquire ByNew exclusive;
    EvCreate (NewSingle 1); EvAcquire ByNew single;
    EvCreate (NewArray 10); EvAcquire ByNewArray array;
    EvCreate (MallocCast 80); EvAcquire ByMalloc raw;
    EvCreate (Automatic 1);
    EvRelease Delete single;
    EvRelease DeleteArray array;
    EvRelease Free raw;
    EvRelease Delete exclusive;
    EvRelease Delete adopted;
    EvRelease Deallocate control;
    EvRelease Deallocate efficient ].

(** The routine is a namespace-scope function and no friend of the class. *)
Definition demo_site : site := InFunction "memoryAllocationDemo".

(** A client to run the model on: an automatic [int n = 0;] at address 1,
    the call [memoryAllocationDemo(7, &n, &n, n)], and a program around it. *)
Definition sample_objects : gmap addr block :=
  {[ 1%positive := Block Elsewhere (CInt 0) ]}.

Definition sample_call : call :=
  Call 7 (Some 1%positive) (Some 1%positive) 1%positive.

Definition sample_program : list action :=
  [ Assign globalVariable 9; Invoke sample_call; Assign hardwareRegister 3 ].

(** The largest number of calls after which [6 + N] still is an [int]. *)
Definition max_counted_calls : Z := Int.INT_MAX - 6.

(** ** The routine in two halves *)

(** The locals of [memoryAllocationDemo] that own or name storage
    (lines 63-86). *)
Record locals := Locals {
  efficientSharedInt : shared_ptr;
  twoStepSharedInt : shared_ptr;
  exclusiveOwnershipInt : addr;
  singleHeapObject : pointer;
  heapObjectArray : pointer;
  uninitializedMemoryBlock : pointer;
  automaticObject : ResourceManager
}.

Section Halves.

Variable handle_constructor : Z -> ctor_inits.
Variable default_constructor : ctor_inits.

(** Lines 63-86: the declarations, down to the cleanup section. *)
Definition demo_acquire : M locals :=
  let* efficientSharedInt := make_shared_int 42 in
  let* adopted := new_int 24 in
  let* twoStepSharedInt := shared_ptr_adopt adopted in
  let* exclusiveOwnershipInt := make_unique_int 36 in
  let* singleHeapObject := new_ResourceManager handle_constructor 10 in
  let* heapObjectArray := new_ResourceManager_array default_constructor 10 in
  let* uninitializedMemoryBlock :=
    malloc_ResourceManager (10 * sizeof_ResourceManager) in
  let* automaticObject := automatic_ResourceManager handle_constructor 20 in
  ret (Locals efficientSharedInt twoStepSharedInt exclusiveOwnershipInt
              singleHeapObject heapObjectArray uninitializedMemoryBlock
              automaticObject).

(** Lines 91-99: the cleanup section, the increment, the return and the
    destructors at the closing brace. *)
Definition demo_cleanup (l : locals) : M Z :=
  let* _ := delete_object (singleHeapObject l) in
  let* _ := delete_array (heapObjectArray l) in
  let* _ := free (uninitializedMemoryBlock l) in
  let* _ := increment_persistentCounter in
  let* result := subscript stackArray 0 in
  let* _ := destroy_ResourceManager (automaticObject l) in
  let* _ := unique_ptr_destroy (exclusiveOwnershipInt l) in
  let* _ := shared_ptr_destroy (twoStepSharedInt l) in
  let* _ := shared_ptr_destroy (efficientSharedInt l) in
  ret result.

End Halves.

(** The steps of the first half, given the seven addresses. *)
Definition acquire_trace (efficient adopted control exclusive single array raw : addr)
  : list event :=
  [ EvAcquire ByAllocator efficient;
    EvAcquire ByNew adopted;
    EvAcquire ByAllocator control;
    EvAcquire ByNew exclusive;
    EvCreate (NewSingle 1); EvAcquire ByNew single;
    EvCreate (NewArray 10); EvAcquire ByNewArray array;
    EvCreate (MallocCast 80); EvAcquire ByMalloc raw;
    EvCreate (Automatic 1) ].

(** The store when the cleanup section starts: the store at entry and the
    seven blocks of the first half. *)
Definition acquired_store (hc : Z -> ctor_inits) (dc : ctor_inits)
    (efficient adopted control exclusive single array raw : addr)
    (h : gmap addr block) : gmap addr block :=
  <[raw := Block (Dynamic ByMalloc) (CRaw 80)]>
  (<[array := Block (Dynamic ByNewArray) (CArray (replicate 10 (construct dc)))]>
  (<[single := Block (Dynamic ByNew) (CObject (construct (hc 10)))]>
  (<[exclusive := Block (Dynamic ByNew) (CInt 36)]>
  (<[control := Block (Dynamic ByAllocator) (CControl 1 (Some adopted))]>
  (<[adopted := Block (Dynamic ByNew) (CInt 24)]>
  (<[efficient := Block (Dynamic ByAllocator) (CSharedInt 1 42)]> h)))))).



(** A small array declaration to run [array_init] on. *)
Definition sample_initializers : list Z := [4; 5; 6].

(** * Properties *)

(** ** Running the primitives *)

Section Steps.

Implicit Types (h : gmap addr block) (s : state) (a : addr).

Lemma fresh_unused h : h !! fresh (dom h) = None.
Proof. apply not_elem_of_dom, is_fresh. Qed.

Lemma set_heap_heap s : set_heap (heap s) s = s.
Proof. by destruct s. Qed.

Lemma heap_set_heap h s : heap (set_heap h s) = h.
Proof. by destruct s. Qed.

Lemma bind_Ok {A B} (m : M A) (k : A -> M B) s x s1 tr1 y s2 tr2 :
  m s = Ok x s1 tr1 -> k x s1 = Ok y s2 tr2 ->
  bind m k s = Ok y s2 (tr1 ++ tr2).
Proof. intros H1 H2. unfold bind. by rewrite H1, H2. Qed.

Lemma allocate_at f c a h s :
  a = fresh (dom h) ->
  allocate f c (set_heap h s) =
  Ok a (set_heap (<[a := Block (Dynamic f) c]> h) s) [EvAcquire f a].
Proof. intros ->. by destruct s. Qed.

Lemma release_at r a f c h s :
  h !! a = Some (Block (Dynamic f) c) ->
  matching f r = true ->
  release r (Some a) (set_heap h s) = Ok tt (set_heap (delete a h) s) [EvRelease r a].
Proof. intros Hl Hm. destruct s. unfold release; simpl. by rewrite Hl, Hm. Qed.

Lemma increment_at h s :
  increment_persistentCounter (set_heap h s) =
  Ok tt (set_heap h (set_persistentCounter (Int.incr (persistentCounter s)) s)) [].
Proof. by destruct s. Qed.

Lemma heap_set_persistentCounter v s : heap (set_persistentCounter v s) = heap s.
Proof. by destruct s. Qed.

Lemma make_shared_int_at v a h s :
  a = fresh (dom h) ->
  make_shared_int v (set_heap h s) =
  Ok (SharedPtr (Some a) a)
     (set_heap (<[a := Block (Dynamic ByAllocator) (CSharedInt 1 v)]> h) s)
     [EvAcquire ByAllocator a].
Proof. intros ->. by destruct s. Qed.

Lemma new_int_at v a h s :
  a = fresh (dom h) ->
  new_int v (set_heap h s) =
  Ok (Some a) (set_heap (<[a := Block (Dynamic ByNew) (CInt v)]> h) s)
     [EvAcquire ByNew a].
Proof. intros ->. by destruct s. Qed.

Lemma shared_ptr_adopt_at p a h s :
  a = fresh (dom h) ->
  shared_ptr_adopt p (set_heap h s) =
  Ok (SharedPtr p a)
     (set_heap (<[a := Block (Dynamic ByAllocator) (CControl 1 p)]> h) s)
     [EvAcquire ByAllocator a].
Proof. intros ->. by destruct s. Qed.

(** The last owner of a [make_shared] block gives the block back. *)
Lemma shared_ptr_destroy_combined o c v h s :
  h !! c = Some (Block (Dynamic ByAllocator) (CSharedInt 1 v)) ->
  shared_ptr_destroy (SharedPtr o c) (set_heap h s) =
  Ok tt (set_heap (delete c h) s) [EvRelease Deallocate c].
Proof.
  intros Hc. destruct s. unfold shared_ptr_destroy, bind, get_heap, release; simpl.
  rewrite Hc; simpl. by rewrite Hc.
Qed.

(** The last owner of an adopted object deletes it, then gives the
    control block back. *)
Lemma shared_ptr_destroy_adopted a c v h s :
  a ≠ c ->
  h !! c = Some (Block (Dynamic ByAllocator) (CControl 1 (Some a))) ->
  h !! a = Some (Block (Dynamic ByNew) v) ->
  shared_ptr_destroy (SharedPtr (Some a) c) (set_heap h s) =
  Ok tt (set_heap (delete c (delete a h)) s) [EvRelease Delete a; EvRelease Deallocate c].
Proof.
  intros Hne Hc Ha. destruct s.
  unfold shared_ptr_destroy, bind, get_heap, release; simpl.
  rewrite Hc; simpl. rewrite Ha; simpl.
  by rewrite lookup_delete_ne, Hc by done.
Qed.

Section Creations.
Variable hc : Z -> ctor_inits.
Variable dc : ctor_inits.

Lemma new_ResourceManager_at v a h s :
  a = fresh (dom h) ->
  new_ResourceManager hc v (set_heap h s) =
  Ok (Some a)
     (set_heap (<[a := Block (Dynamic ByNew) (CObject (construct (hc v)))]> h) s)
     [EvCreate (NewSingle 1); EvAcquire ByNew a].
Proof. intros ->. by destruct s. Qed.

Lemma new_ResourceManager_array_at n a h s :
  a = fresh (dom h) ->
  new_ResourceManager_array dc n (set_heap h s) =
  Ok (Some a)
     (set_heap (<[a := Block (Dynamic ByNewArray)
                         (CArray (replicate (N.to_nat n) (construct dc)))]> h) s)
     [EvCreate (NewArray n); EvAcquire ByNewArray a].
Proof. intros ->. by destruct s. Qed.

Lemma malloc_ResourceManager_at n a h s :
  a = fresh (dom h) ->
  malloc_ResourceManager n (set_heap h s) =
  Ok (Some a) (set_heap (<[a := Block (Dynamic ByMalloc) (CRaw n)]> h) s)
     [EvCreate (MallocCast n); EvAcquire ByMalloc a].
Proof. intros ->. by destruct s. Qed.
End Creations.
End Steps.

Ltac look :=
  repeat first [ rewrite lookup_delete_ne by congruence
               | rewrite lookup_insert_ne by congruence ];
  first [ apply lookup_insert_eq | done ].
Ltac run_step :=
  first [ eapply allocate_at; eassumption
        | eapply make_shared_int_at; eassumption
        | eapply new_int_at; eassumption
        | eapply shared_ptr_adopt_at; eassumption
        | eapply new_ResourceManager_at; eassumption
        | eapply new_ResourceManager_array_at; eassumption
        | eapply malloc_ResourceManager_at; eassumption
        | apply increment_at
        | eapply release_at; [ look | reflexivity ]
        | eapply shared_ptr_destroy_combined; look
        | eapply shared_ptr_destroy_adopted; [ congruence | look | look ] ].
Ltac step := eapply bind_Ok; [ run_step | ].
Ltac pure_step := eapply bind_Ok; [ reflexivity | ].

Section Routine.
Variable hc : Z -> ctor_inits.
Variable dc : ctor_inits.

(** One call, step by step: seven blocks at pairwise distinct addresses
    that were free, all of them given back, the counter advanced. *)
Lemma demo_exec x p q r s :
  exists a1 a2 a3 a4 a5 a6 a7,
    NoDup [a1; a2; a3; a4; a5; a6; a7] /\
    Forall (fun a => heap s !! a = None) [a1; a2; a3; a4; a5; a6; a7] /\
    memoryAllocationDemo hc dc x p q r s =
    Ok 0 (set_persistentCounter (Int.incr (persistentCounter s)) s)
         (demo_trace a1 a2 a3 a4 a5 a6 a7).
Proof.
  remember (heap s) as h eqn:Eh.
  remember (fresh (dom h)) as a1 eqn:E1.
  pose (h1 := <[a1 := Block (Dynamic ByAllocator) (CSharedInt 1 42)]> h).
  remember (fresh (dom h1)) as a2 eqn:E2.
  pose (h2 := <[a2 := Block (Dynamic ByNew) (CInt 24)]> h1).
  remember (fresh (dom h2)) as a3 eqn:E3.
  pose (h3 := <[a3 := Block (Dynamic ByAllocator) (CControl 1 (Some a2))]> h2).
  remember (fresh (dom h3)) as a4 eqn:E4.
  pose (h4 := <[a4 := Block (Dynamic ByNew) (CInt 36)]> h3).
  remember (fresh (dom h4)) as a5 eqn:E5.
  pose (h5 := <[a5 := Block (Dynamic ByNew) (CObject (construct (hc 10)))]> h4).
  remember (fresh (dom h5)) as a6 eqn:E6.
  pose (h6 := <[a6 := Block (Dynamic ByNewArray)
                        (CArray (replicate (N.to_nat 10) (construct dc)))]> h5).
  remember (fresh (dom h6)) as a7 eqn:E7.
  pose proof (fresh_unused h) as F1; rewrite <- E1 in F1.
  pose proof (fresh_unused h1) as F2; rewrite <- E2 in F2.
  pose proof (fresh_unused h2) as F3; rewrite <- E3 in F3.
  pose proof (fresh_unused h3) as F4; rewrite <- E4 in F4.
  pose proof (fresh_unused h4) as F5; rewrite <- E5 in F5.
  pose proof (fresh_unused h5) as F6; rewrite <- E6 in F6.
  pose proof (fresh_unused h6) as F7; rewrite <- E7 in F7.
  subst h1 h2 h3 h4 h5 h6.
  repeat match goal with
         | H : <[_ := _]> _ !! _ = None |- _ =>
             apply lookup_insert_None in H as [H ?]
         end.
  exists a1, a2, a3, a4, a5, a6, a7.
  split; [ | split ].
  - repeat (apply NoDup_cons; split;
            [ rewrite ?elem_of_cons, elem_of_nil; intuition congruence | ]).
    apply NoDup_nil_2.
  - repeat constructor; assumption.
  - rewrite <- (set_heap_heap s) at 1. rewrite <- Eh.
    etrans.
    { unfold memoryAllocationDemo, make_unique_int,
        automatic_ResourceManager, delete_object, delete_array, free,
        unique_ptr_destroy, destroy_ResourceManager.
      do 7 step. pure_step.
      do 4 step. do 2 pure_step. do 3 step. reflexivity. }
    f_equal.
    rewrite <- (set_heap_heap (set_persistentCounter _ s)) at 2.
    rewrite heap_set_persistentCounter, <- Eh. f_equal.
    apply map_eq; intros i.
    rewrite !lookup_delete, !lookup_insert.
    repeat case_decide; subst; congruence.
Qed.


(** Pairwise distinctness out of a [NoDup] hypothesis on a literal list. *)
Ltac distinct_in H :=
  repeat (apply NoDup_cons in H as [? H]);
  repeat match goal with
         | N : _ ∉ _ :: _ |- _ => apply not_elem_of_cons in N as [? N]
         end.

Ltac lookups :=
  repeat first [ rewrite lookup_empty
               | rewrite lookup_insert_eq
               | rewrite lookup_delete_eq
               | rewrite lookup_insert_ne by congruence
               | rewrite lookup_delete_ne by congruence ].

(** What the trace of a call says about its seven blocks. *)
Lemma demo_trace_pairing x p q r s :
  exists efficient adopted control exclusive single array raw s',
    let tr := demo_trace efficient adopted control exclusive single array raw in
    memoryAllocationDemo hc dc x p q r s = Ok 0 s' tr /\
    acquired_as single tr = [ByNew] /\ released_as single tr = [Delete] /\
    acquired_as array tr = [ByNewArray] /\ released_as array tr = [DeleteArray] /\
    acquired_as raw tr = [ByMalloc] /\ released_as raw tr = [Free] /\
    outstanding tr ∅ = Some ∅ /\
    heap s' = heap s /\
    Forall (fun a => heap s' !! a = None)
           [efficient; adopted; control; exclusive; single; array; raw].
Proof.
  destruct (demo_exec x p q r s)
    as (a1 & a2 & a3 & a4 & a5 & a6 & a7 & Hnd & Hfree & Hrun).
  exists a1, a2, a3, a4, a5, a6, a7. eexists. cbv zeta.
  split; [ exact Hrun | ].
  rewrite heap_set_persistentCounter.
  distinct_in Hnd.
  unfold acquired_as, released_as, demo_trace; simpl.
  repeat (case_decide; [ try congruence | try congruence ]); simpl.
  repeat (split; [ reflexivity | ]).
  split; [ | split; [ reflexivity | exact Hfree ] ].
  repeat (lookups; simpl).
  f_equal. apply map_eq; intros i.
  rewrite !lookup_delete, !lookup_insert, lookup_empty.
  repeat case_decide; subst; congruence.
Qed.

(** C1. In [memoryAllocationDemo] every heap acquisition is paired with
    exactly its matching release before the routine returns:
    [singleHeapObject] ([new]) with [delete], [heapObjectArray] ([new[]])
    with [delete[]], [uninitializedMemoryBlock] ([malloc]) with [free];
    each is released once, the smart pointers' blocks likewise, and when
    the routine has returned none of the blocks it acquired is live: the
    store is the one it started from. *)
Theorem demo_releases_what_it_acquires x p q r s :
  exists efficient adopted control exclusive single array raw s',
    let tr := demo_trace efficient adopted control exclusive single array raw in
    memoryAllocationDemo hc dc x p q r s = Ok 0 s' tr /\
    acquired_as single tr = [ByNew] /\ released_as single tr = [Delete] /\
    acquired_as array tr = [ByNewArray] /\ released_as array tr = [DeleteArray] /\
    acquired_as raw tr = [ByMalloc] /\ released_as raw tr = [Free] /\
    outstanding tr ∅ = Some ∅ /\
    heap s' = heap s /\
    Forall (fun a => heap s' !! a = None)
           [efficient; adopted; control; exclusive; single; array; raw].
Proof. exact (demo_trace_pairing x p q r s). Qed.

(** Every call returns, whatever the state and the arguments. *)
Lemma demo_returns x p q r s :
  exists tr,
    memoryAllocationDemo hc dc x p q r s =
    Ok 0 (set_persistentCounter (Int.incr (persistentCounter s)) s) tr /\
    accesses tr = [] /\
    creations tr = [NewSingle 1; NewArray 10; MallocCast 80; Automatic 1].
Proof.
  destruct (demo_exec x p q r s)
    as (a1 & a2 & a3 & a4 & a5 & a6 & a7 & _ & _ & Hrun).
  eexists. split; [ exact Hrun | ]. split; reflexivity.
Qed.

(** C2. Whatever the four arguments and the state, the call returns the
    first element of [stackArray] as initialized, which is 0. *)
Theorem demo_returns_first_element x p q r s :
  exists v s' tr,
    memoryAllocationDemo hc dc x p q r s = Ok v s' tr /\
    stackArray !! 0%nat = Some v /\
    v = 0.
Proof.
  destruct (demo_returns x p q r s) as (tr & Hrun & _).
  exists 0. eexists. exists tr. split; [ exact Hrun | ]. split; reflexivity.
Qed.

(** ** The static counter *)

Lemma wrap_in_range z : Int.INT_MIN <= z <= Int.INT_MAX -> Int.wrap z = z.
Proof.
  unfold Int.wrap, Int.INT_MIN, Int.INT_MAX, Int.width. intros Hz.
  rewrite Z.mod_small by lia. lia.
Qed.

Lemma incr_wrap z : Int.incr (Int.wrap z) = Int.wrap (z + 1).
Proof.
  unfold Int.incr, Int.wrap.
  replace ((z - Int.INT_MIN) mod 2 ^ Int.width + Int.INT_MIN + 1 - Int.INT_MIN)
    with ((z - Int.INT_MIN) mod 2 ^ Int.width + 1) by lia.
  replace (z + 1 - Int.INT_MIN) with ((z - Int.INT_MIN) + 1) by lia.
  by rewrite Zplus_mod_idemp_l.
Qed.

(** [n] increments of an [int] that holds [z]. *)
Lemma iter_incr n z :
  Int.INT_MIN <= z <= Int.INT_MAX ->
  Nat.iter n Int.incr z = Int.wrap (z + Z.of_nat n).
Proof.
  intros Hz. induction n as [|n IH].
  - simpl. rewrite Z.add_0_r. symmetry. by apply wrap_in_range.
  - rewrite Nat.iter_succ, IH, incr_wrap. f_equal. lia.
Qed.

Lemma persistentCounter_set v s : persistentCounter (set_persistentCounter v s) = v.
Proof. by destruct s. Qed.

Lemma set_persistentCounter_twice v w s :
  set_persistentCounter v (set_persistentCounter w s) = set_persistentCounter v s.
Proof. by destruct s. Qed.

Lemma set_persistentCounter_same s : set_persistentCounter (persistentCounter s) s = s.
Proof. by destruct s. Qed.

(** Any number of calls in a row returns; of the state only the counter
    moves, by one increment a call. *)
Lemma invoke_all_exec cs s :
  exists tr,
    invoke_all hc dc cs s =
    Ok tt (set_persistentCounter (Nat.iter (length cs) Int.incr (persistentCounter s)) s) tr.
Proof.
  revert s. induction cs as [|c cs IH]; intros s.
  - exists []. simpl. unfold ret. by rewrite set_persistentCounter_same.
  - destruct (demo_returns (stackCopyParam c) (readOnlyDataPtr c)
                           (fixedAddressPtr c) (referenceAlias c) s)
      as (tr1 & Hrun & _).
    destruct (IH (set_persistentCounter (Int.incr (persistentCounter s)) s))
      as (tr2 & Hrest).
    exists (tr1 ++ tr2).
    change (invoke_all hc dc (c :: cs))
      with (bind (invoke hc dc c) (fun _ => invoke_all hc dc cs)).
    erewrite bind_Ok; [ | exact Hrun | exact Hrest ].
    rewrite persistentCounter_set, set_persistentCounter_twice.
    by rewrite <- Nat.iter_succ_r.
Qed.

(** C3, as amended. [persistentCounter] holds 6 when the program starts,
    no call initializes it again, and each call adds exactly 1: after N
    calls, for every N with 6 + N no larger than INT_MAX (N at most
    2147483641), its value is 6 + N. *)
Theorem persistentCounter_counts_calls
    (cs : list call) (ext shared : Z) (objects : gmap addr block) :
  Z.of_nat (length cs) <= max_counted_calls ->
  exists s' tr,
    invoke_all hc dc cs (initial_state ext shared objects) = Ok tt s' tr /\
    persistentCounter (initial_state ext shared objects) = 6 /\
    persistentCounter s' = 6 + Z.of_nat (length cs).
Proof.
  intros Hn.
  destruct (invoke_all_exec cs (initial_state ext shared objects)) as (tr & Hrun).
  eexists. exists tr. split; [ exact Hrun | ]. split; [ reflexivity | ].
  rewrite persistentCounter_set.
  change (persistentCounter (initial_state ext shared objects)) with 6.
  unfold max_counted_calls, Int.INT_MAX in Hn.
  rewrite iter_incr by (unfold Int.INT_MIN, Int.INT_MAX; lia).
  apply wrap_in_range. unfold Int.INT_MIN, Int.INT_MAX. lia.
Qed.

(** Past that bound the counter wraps. *)
Lemma persistentCounter_after
    (n : N) (c : call) (ext shared : Z) (objects : gmap addr block) :
  exists s' tr,
    invoke_all hc dc (replicate (N.to_nat n) c) (initial_state ext shared objects)
    = Ok tt s' tr /\
    persistentCounter s' = Int.wrap (6 + Z.of_N n).
Proof.
  destruct (invoke_all_exec (replicate (N.to_nat n) c)
                            (initial_state ext shared objects)) as (tr & Hrun).
  eexists. exists tr. split; [ exact Hrun | ].
  rewrite persistentCounter_set, length_replicate.
  change (persistentCounter (initial_state ext shared objects)) with 6.
  rewrite iter_incr by (unfold Int.INT_MIN, Int.INT_MAX; lia).
  by rewrite N_nat_Z.
Qed.

(** ** Access control and the array new-expression *)

(** C4. [new ResourceManager[n]] in [memoryAllocationDemo] is ill-formed:
    it names the default constructor, which the class declares private,
    and the routine is neither a member nor a friend; the routine
    nevertheless contains that expression, with n = 10, and it is the
    one creation expression of the routine that the check rejects. *)
Theorem array_new_is_ill_formed x p q r s :
  constructor_needed (NewArray 10) = Some 0%nat /\
  constructor_access ResourceManager_decl 0 = Some Private /\
  accessible ResourceManager_decl demo_site Private = false /\
  (forall n, check_creation ResourceManager_decl demo_site (NewArray n) = IllFormed) /\
  exists s' tr,
    memoryAllocationDemo hc dc x p q r s = Ok 0 s' tr /\
    creations tr = [NewSingle 1; NewArray 10; MallocCast 80; Automatic 1] /\
    check_creation ResourceManager_decl demo_site <$> creations tr
    = [WellFormed; IllFormed; WellFormed; WellFormed].
Proof.
  do 3 (split; [ reflexivity | ]).
  split; [ intros n; reflexivity | ].
  destruct (demo_returns x p q r s) as (tr & Hrun & _ & Hcr).
  eexists. exists tr. split; [ exact Hrun | ]. by rewrite Hcr.
Qed.

(** ** The static data member *)

Lemma release_keeps_shared r p s :
  match release r p s with
  | Ok _ s' _ => sharedInstanceCounter s' = sharedInstanceCounter s
  | Undefined _ => True
  end.
Proof.
  unfold release. destruct p as [a|]; [ | reflexivity ].
  destruct (heap s !! a) as [[[f|] c]|]; try exact I.
  destruct (matching f r); [ by destruct s | exact I ].
Qed.

(** C6. Nothing in the header modifies [sharedInstanceCounter]: creating a
    [ResourceManager] in any of the four ways, destroying one, releasing
    storage in any form, a call of [memoryAllocationDemo] and any number
    of calls all leave its value as it was. *)
Theorem sharedInstanceCounter_unchanged :
  (forall v s, exists p s' tr,
      new_ResourceManager hc v s = Ok p s' tr /\
      sharedInstanceCounter s' = sharedInstanceCounter s) /\
  (forall n s, exists p s' tr,
      new_ResourceManager_array dc n s = Ok p s' tr /\
      sharedInstanceCounter s' = sharedInstanceCounter s) /\
  (forall n s, exists p s' tr,
      malloc_ResourceManager n s = Ok p s' tr /\
      sharedInstanceCounter s' = sharedInstanceCounter s) /\
  (forall v s, exists o s' tr,
      automatic_ResourceManager hc v s = Ok o s' tr /\
      sharedInstanceCounter s' = sharedInstanceCounter s) /\
  (forall o s, exists s' tr,
      destroy_ResourceManager o s = Ok tt s' tr /\
      sharedInstanceCounter s' = sharedInstanceCounter s) /\
  (forall r p s,
      match release r p s with
      | Ok _ s' _ => sharedInstanceCounter s' = sharedInstanceCounter s
      | Undefined _ => True
      end) /\
  (forall x p q r s, exists s' tr,
      memoryAllocationDemo hc dc x p q r s = Ok 0 s' tr /\
      sharedInstanceCounter s' = sharedInstanceCounter s) /\
  (forall cs s, exists s' tr,
      invoke_all hc dc cs s = Ok tt s' tr /\
      sharedInstanceCounter s' = sharedInstanceCounter s).
Proof.
  split_and!.
  - intros v s. do 3 eexists. split; [ reflexivity | by destruct s ].
  - intros n s. do 3 eexists. split; [ reflexivity | by destruct s ].
  - intros n s. do 3 eexists. split; [ reflexivity | by destruct s ].
  - intros v s. do 3 eexists. split; [ reflexivity | by destruct s ].
  - intros o s. do 2 eexists. split; [ reflexivity | by destruct s ].
  - apply release_keeps_shared.
  - intros x p q r s. destruct (demo_returns x p q r s) as (tr & Hrun & _).
    eexists. exists tr. split; [ exact Hrun | by destruct s ].
  - intros cs s. destruct (invoke_all_exec cs s) as (tr & Hrun).
    eexists. exists tr. split; [ exact Hrun | by destruct s ].
Qed.

(** ** The const-qualified global *)

Lemma perform_keeps_immutableGlobal a s s' tr :
  perform hc dc a s = Ok tt s' tr ->
  read_global immutableGlobal s' = read_global immutableGlobal s.
Proof.
  destruct a as [g v|c]; simpl.
  - unfold assign. destruct g; simpl; intros H; inversion H; by destruct s.
  - unfold invoke.
    destruct (demo_returns (stackCopyParam c) (readOnlyDataPtr c)
                           (fixedAddressPtr c) (referenceAlias c) s)
      as (tr1 & Hrun & _).
    unfold bind. rewrite Hrun. simpl. intros H; inversion H. by destruct s.
Qed.

Lemma run_keeps_immutableGlobal prog s s' tr :
  run hc dc prog s = Ok tt s' tr ->
  read_global immutableGlobal s' = read_global immutableGlobal s.
Proof.
  revert s tr. induction prog as [|a prog IH]; intros s tr.
  - simpl. unfold ret. intros H; by inversion H.
  - simpl. unfold bind.
    destruct (perform hc dc a s) as [[] s1 tr1|u] eqn:Ha; [ | discriminate ].
    destruct (run hc dc prog s1) as [[] s2 tr2|u] eqn:Hp; [ | discriminate ].
    intros H; inversion H; subst.
    etrans; [ exact (IH _ _ Hp) | exact (perform_keeps_immutableGlobal _ _ _ _ Ha) ].
Qed.

(** C8. An assignment to [immutableGlobal] is rejected at compile time,
    whatever the value; the variable holds 5 when the program starts and
    still holds 5 after any sequence of assignments to the globals and
    calls of the routine that runs. *)
Theorem immutableGlobal_stays_5 :
  (forall v, check_action (Assign immutableGlobal v) = IllFormed) /\
  (forall ext shared objects,
      read_global immutableGlobal (initial_state ext shared objects) = 5) /\
  (forall prog ext shared objects s' tr,
      run hc dc prog (initial_state ext shared objects) = Ok tt s' tr ->
      read_global immutableGlobal s' = 5).
Proof.
  split; [ reflexivity | ]. split; [ reflexivity | ].
  intros prog ext shared objects s' tr Hrun.
  by rewrite (run_keeps_immutableGlobal _ _ _ _ Hrun).
Qed.

(** ** What a call leaves alone *)

(** C9. A call reads none of its four parameters and accesses nothing
    through them: the outcome is the same for all arguments, the trace
    holds no load, store or member read, and the state afterwards is the
    state before with [persistentCounter] incremented, so the store
    (the int bound to [referenceAlias] included), the globals and the
    static data member are as they were. *)
Theorem demo_frame x p q r s :
  exists s' tr,
    memoryAllocationDemo hc dc x p q r s = Ok 0 s' tr /\
    s' = set_persistentCounter (Int.incr (persistentCounter s)) s /\
    accesses tr = [] /\
    (forall x' p' q' r',
        memoryAllocationDemo hc dc x' p' q' r' s = memoryAllocationDemo hc dc x p q r s) /\
    heap s' = heap s /\
    heap s' !! r = heap s !! r /\
    (forall g, read_global g s' = read_global g s) /\
    sharedInstanceCounter s' = sharedInstanceCounter s.
Proof.
  destruct (demo_returns x p q r s) as (tr & Hrun & Hacc & _).
  eexists. exists tr. split; [ exact Hrun | ]. split; [ reflexivity | ].
  split; [ exact Hacc | ]. split; [ intros; reflexivity | ].
  destruct s; simpl. split_and!; reflexivity.
Qed.

(** C10. A call never reads a member of an object in the block it got
    from [malloc]: the block is acquired and freed, the call returns
    without undefined behaviour, and its trace holds no access to [raw],
    indeed no load, store or member read at all. *)
Theorem raw_block_never_read x p q r s :
  exists efficient adopted control exclusive single array raw s',
    let tr := demo_trace efficient adopted control exclusive single array raw in
    memoryAllocationDemo hc dc x p q r s = Ok 0 s' tr /\
    acquired_as raw tr = [ByMalloc] /\
    released_as raw tr = [Free] /\
    (raw ∉ accesses tr) /\
    Forall (fun e => accessed e = None) tr.
Proof.
  destruct (demo_trace_pairing x p q r s)
    as (a1 & a2 & a3 & a4 & a5 & a6 & a7 & s' & H).
  cbv zeta in H. destruct H as (Hrun & _ & _ & _ & _ & Hacq & Hrel & _).
  exists a1, a2, a3, a4, a5, a6, a7, s'. cbv zeta.
  split; [ exact Hrun | ]. split; [ exact Hacq | ]. split; [ exact Hrel | ].
  split; [ apply not_elem_of_nil | ].
  unfold demo_trace. repeat constructor.
Qed.

(** ** Objects in the store *)

(** Whatever is read or written through a pointer shows in the trace. *)
Lemma load_traced p v s s' tr :
  load p s = Ok v s' tr -> exists a, p = Some a /\ accesses tr = [a].
Proof.
  unfold load. destruct p as [a|]; [ | discriminate ].
  destruct (heap s !! a) as [[st []]|]; try discriminate.
  intros H; inversion H. by exists a.
Qed.

Lemma store_traced p v s s' tr :
  store p v s = Ok tt s' tr -> exists a, p = Some a /\ accesses tr = [a].
Proof.
  unfold store. destruct p as [a|]; [ | discriminate ].
  destruct (heap s !! a) as [[st []]|]; try discriminate.
  intros H; inversion H. by exists a.
Qed.

Lemma read_field_traced p i f v s s' tr :
  read_field p i f s = Ok v s' tr -> exists a, p = Some a /\ accesses tr = [a].
Proof.
  unfold read_field. destruct p as [a|]; [ | discriminate ].
  destruct (heap s !! a) as [[st c]|]; [ | discriminate ].
  destruct c as [z|o0|os|n z|n m|n]; try discriminate;
    (destruct (object_at _ i) as [o|]; [ | discriminate ];
     destruct (get_field f o); [ | discriminate ];
     intros H; inversion H; by exists a).
Qed.

(** Releasing a block in a form other than the one it was obtained by is
    undefined. *)
Lemma release_mismatched r a f c s :
  heap s !! a = Some (Block (Dynamic f) c) ->
  matching f r = false ->
  release r (Some a) s = Undefined (MismatchedRelease f r).
Proof. intros Hl Hm. unfold release. by rewrite Hl, Hm. Qed.

(** Members of a constructed object read back as initialized, in any
    state whose store holds the object. *)
Lemma read_field_object a f st o v s :
  heap s !! a = Some (Block st (CObject o)) ->
  get_field f o = Some v ->
  read_field (Some a) 0 f s = Ok v s [EvField a 0 f].
Proof. intros Hl Hf. unfold read_field. rewrite Hl. simpl. by rewrite Hf. Qed.

(** In storage that holds no object every member read is undefined. *)
Lemma read_field_raw a i f st n s :
  heap s !! a = Some (Block st (CRaw n)) ->
  read_field (Some a) i f s = Undefined (IndeterminateValue a).
Proof. intros Hl. unfold read_field. by rewrite Hl. Qed.

(** Calls of the routine leave the store as it was. *)
Lemma invoke_all_heap cs s :
  exists s' tr, invoke_all hc dc cs s = Ok tt s' tr /\ heap s' = heap s.
Proof.
  destruct (invoke_all_exec cs s) as (tr & Hrun).
  eexists. exists tr. split; [ exact Hrun | by destruct s ].
Qed.

End Routine.

(** ** The public constructor *)

(** C5. [ResourceManager(int)] is the one public constructor the class
    declares; [new ResourceManager(42)] yields an object whose
    [instanceId] reads 5 and whose [resourceHandle] reads 42, they still
    read so after any number of calls of the routine, and [delete] then
    releases the object, leaving the state as before the allocation. *)
Theorem constructed_with_handle_42 (s : state) :
  public_constructors ResourceManager_decl = [1%nat] /\
  exists a s1,
    new_ResourceManager spec_handle_constructor 42 s
    = Ok (Some a) s1 [EvCreate (NewSingle 1); EvAcquire ByNew a] /\
    heap s !! a = None /\
    read_field (Some a) 0 f_instanceId s1 = Ok 5 s1 [EvField a 0 f_instanceId] /\
    read_field (Some a) 0 f_resourceHandle s1 = Ok 42 s1 [EvField a 0 f_resourceHandle] /\
    (forall cs, exists s2 tr,
        invoke_all spec_handle_constructor spec_default_constructor cs s1 = Ok tt s2 tr /\
        read_field (Some a) 0 f_instanceId s2 = Ok 5 s2 [EvField a 0 f_instanceId] /\
        read_field (Some a) 0 f_resourceHandle s2
        = Ok 42 s2 [EvField a 0 f_resourceHandle]) /\
    delete_object (Some a) s1 = Ok tt s [EvRelease Delete a].
Proof.
  split; [ reflexivity | ].
  pose proof (fresh_unused (heap s)) as Hfresh.
  set (a := fresh (dom (heap s))) in *.
  set (o := construct (spec_handle_constructor 42)).
  set (s1 := set_heap (<[a := Block (Dynamic ByNew) (CObject o)]> (heap s)) s).
  assert (Hobj : heap s1 !! a = Some (Block (Dynamic ByNew) (CObject o))).
  { unfold s1. rewrite heap_set_heap. apply lookup_insert_eq. }
  exists a, s1. split_and!.
  - rewrite <- (set_heap_heap s) at 1. by apply new_ResourceManager_at.
  - exact Hfresh.
  - by apply (read_field_object a f_instanceId (Dynamic ByNew) o).
  - by apply (read_field_object a f_resourceHandle (Dynamic ByNew) o).
  - intros cs.
    destruct (invoke_all_heap spec_handle_constructor spec_default_constructor cs s1)
      as (s2 & tr & Hrun & Hheap).
    exists s2, tr. rewrite <- Hheap in Hobj. split_and!.
    + exact Hrun.
    + by apply (read_field_object a f_instanceId (Dynamic ByNew) o).
    + by apply (read_field_object a f_resourceHandle (Dynamic ByNew) o).
  - unfold delete_object, s1.
    erewrite release_at; [ | apply lookup_insert_eq | reflexivity ].
    by rewrite delete_insert_id, set_heap_heap.
Qed.

(** ** The automatic array *)

(** Elements past the initializer list are zero. *)
Lemma array_init_beyond (n : nat) (inits : list Z) (i : nat) :
  (length inits <= i < n)%nat -> array_init n inits !! i = Some 0.
Proof.
  intros [Hlo Hhi]. unfold array_init.
  rewrite lookup_take_lt by lia.
  rewrite lookup_app_r by lia.
  apply lookup_replicate_2. lia.
Qed.

Lemma array_init_length (n : nat) (inits : list Z) : length (array_init n inits) = n.
Proof.
  unfold array_init. rewrite length_take, length_app, length_replicate. lia.
Qed.

(** C7. [stackArray] has three elements; the one past the initializer
    list [{0, 1}] is zero, so the array holds 0, 1, 0. *)
Theorem stackArray_initialized :
  length stackArray = 3%nat /\
  stackArray = [0; 1; 0] /\
  stackArray !! 2%nat = Some 0 /\
  drop (length [0; 1]) stackArray = replicate (3 - length [0; 1]) 0.
Proof. split_and!; reflexivity. Qed.

(** C3, as stated, fails: the 2147483642nd call increments an [int] that
    holds INT_MAX, and the counter is then INT_MIN, not 6 + 2147483642. *)
Lemma persistentCounter_wraps :
  exists s' tr,
    invoke_all spec_handle_constructor spec_default_constructor
               (replicate (N.to_nat 2147483642) sample_call)
               (initial_state 0 0 sample_objects)
    = Ok tt s' tr /\
    persistentCounter s' = Int.INT_MIN /\
    persistentCounter s' <> 6 + 2147483642.
Proof.
  destruct (persistentCounter_after spec_handle_constructor spec_default_constructor
              2147483642 sample_call 0 0 sample_objects) as (s' & tr & Hrun & Hpc).
  exists s', tr. split; [ exact Hrun | ].
  rewrite Hpc. split; [ reflexivity | discriminate ].
Qed.

Lemma persistentCounter_counts_calls_witness :
  Z.of_nat (length [sample_call; sample_call; sample_call]) <= max_counted_calls /\
  exists s' tr,
    invoke_all spec_handle_constructor spec_default_constructor
               [sample_call; sample_call; sample_call]
               (initial_state 0 0 sample_objects)
    = Ok tt s' tr /\
    persistentCounter (initial_state 0 0 sample_objects) = 6 /\
    persistentCounter s' = 6 + Z.of_nat (length [sample_call; sample_call; sample_call]).
Proof.
  split; [ vm_compute; discriminate | ].
  apply (persistentCounter_counts_calls spec_handle_constructor spec_default_constructor).
  vm_compute; discriminate.
Defined.

Lemma immutableGlobal_stays_5_witness :
  exists s' tr,
    run spec_handle_constructor spec_default_constructor sample_program
        (initial_state 0 0 sample_objects)
    = Ok tt s' tr /\
    read_global immutableGlobal s' = 5.
Proof.
  eexists _, _. split; [ vm_compute; reflexivity | ].
  eapply (proj2 (proj2 (immutableGlobal_stays_5 spec_handle_constructor
                                                 spec_default_constructor))
            sample_program 0 0 sample_objects).
  vm_compute; reflexivity.
Defined.

(** * The rest of the header *)

(** ** The monad *)

Lemma bind_assoc {A B C} (m : M A) (k : A -> M B) (k' : B -> M C) s :
  bind (bind m k) k' s = bind m (fun x => bind (k x) k') s.
Proof.
  unfold bind. destruct (m s) as [x s1 tr1|u]; [ | reflexivity ].
  destruct (k x s1) as [y s2 tr2|u]; [ | reflexivity ].
  destruct (k' y s2) as [z s3 tr3|u]; [ | reflexivity ].
  by rewrite app_assoc.
Qed.

Lemma bind_ext {A B} (m : M A) (k k' : A -> M B) s :
  (forall x s1, k x s1 = k' x s1) -> bind m k s = bind m k' s.
Proof.
  intros Hk. unfold bind. destruct (m s) as [x s1 tr1|u]; [ | reflexivity ].
  by rewrite Hk.
Qed.

Lemma bind_ret_l {A B} (x : A) (k : A -> M B) s : bind (ret x) k s = k x s.
Proof. unfold bind, ret. by destruct (k x s). Qed.

(** ** Reading longer traces *)

Lemma outstanding_app tr1 tr2 live :
  outstanding (tr1 ++ tr2) live =
  match outstanding tr1 live with
  | Some live' => outstanding tr2 live'
  | None => None
  end.
Proof.
  revert live. induction tr1 as [|e tr1 IH]; intros live; [ reflexivity | ].
  destruct e as [c|f a|r a|a|a v|a i f|g v]; simpl; try apply IH.
  - destruct (live !! a); [ reflexivity | apply IH ].
  - destruct (live !! a) as [f|]; [ | reflexivity ].
    destruct (matching f r); [ apply IH | reflexivity ].
Qed.

Lemma accesses_app tr1 tr2 : accesses (tr1 ++ tr2) = accesses tr1 ++ accesses tr2.
Proof. apply omap_app. Qed.

Lemma creations_app tr1 tr2 : creations (tr1 ++ tr2) = creations tr1 ++ creations tr2.
Proof. apply omap_app. Qed.

Ltac apart H :=
  repeat (apply NoDup_cons in H as [? H]);
  repeat match goal with
         | N : _ ∉ _ :: _ |- _ => apply not_elem_of_cons in N as [? N]
         end.

Ltac find_block :=
  repeat first [ rewrite lookup_insert_eq
               | rewrite lookup_insert_ne by congruence
               | rewrite lookup_delete_ne by congruence ].

Section Phases.

Variable hc : Z -> ctor_inits.
Variable dc : ctor_inits.

(** The routine is its first half followed by its second. *)
Lemma demo_split x p q r s :
  memoryAllocationDemo hc dc x p q r s
  = bind (demo_acquire hc dc) demo_cleanup s.
Proof.
  unfold memoryAllocationDemo, demo_acquire. symmetry.
  repeat (rewrite bind_assoc; apply bind_ext; intros ? ?).
  by rewrite bind_ret_l.
Qed.

(** The first half, step by step. *)
Lemma demo_acquire_exec s :
  exists a1 a2 a3 a4 a5 a6 a7,
    NoDup [a1; a2; a3; a4; a5; a6; a7] /\
    Forall (fun a => heap s !! a = None) [a1; a2; a3; a4; a5; a6; a7] /\
    demo_acquire hc dc s =
    Ok (Locals (SharedPtr (Some a1) a1) (SharedPtr (Some a2) a3) a4
               (Some a5) (Some a6) (Some a7) (construct (hc 20)))
       (set_heap (acquired_store hc dc a1 a2 a3 a4 a5 a6 a7 (heap s)) s)
       (acquire_trace a1 a2 a3 a4 a5 a6 a7).
Proof.
  remember (heap s) as h eqn:Eh.
  remember (fresh (dom h)) as a1 eqn:E1.
  pose (h1 := <[a1 := Block (Dynamic ByAllocator) (CSharedInt 1 42)]> h).
  remember (fresh (dom h1)) as a2 eqn:E2.
  pose (h2 := <[a2 := Block (Dynamic ByNew) (CInt 24)]> h1).
  remember (fresh (dom h2)) as a3 eqn:E3.
  pose (h3 := <[a3 := Block (Dynamic ByAllocator) (CControl 1 (Some a2))]> h2).
  remember (fresh (dom h3)) as a4 eqn:E4.
  pose (h4 := <[a4 := Block (Dynamic ByNew) (CInt 36)]> h3).
  remember (fresh (dom h4)) as a5 eqn:E5.
  pose (h5 := <[a5 := Block (Dynamic ByNew) (CObject (construct (hc 10)))]> h4).
  remember (fresh (dom h5)) as a6 eqn:E6.
  pose (h6 := <[a6 := Block (Dynamic ByNewArray)
                        (CArray (replicate (N.to_nat 10) (construct dc)))]> h5).
  remember (fresh (dom h6)) as a7 eqn:E7.
  pose proof (fresh_unused h) as F1; rewrite <- E1 in F1.
  pose proof (fresh_unused h1) as F2; rewrite <- E2 in F2.
  pose proof (fresh_unused h2) as F3; rewrite <- E3 in F3.
  pose proof (fresh_unused h3) as F4; rewrite <- E4 in F4.
  pose proof (fresh_unused h4) as F5; rewrite <- E5 in F5.
  pose proof (fresh_unused h5) as F6; rewrite <- E6 in F6.
  pose proof (fresh_unused h6) as F7; rewrite <- E7 in F7.
  subst h1 h2 h3 h4 h5 h6.
  repeat match goal with
         | H : <[_ := _]> _ !! _ = None |- _ =>
             apply lookup_insert_None in H as [H ?]
         end.
  exists a1, a2, a3, a4, a5, a6, a7.
  split; [ | split ].
  - repeat (apply NoDup_cons; split;
            [ rewrite ?elem_of_cons, elem_of_nil; intuition congruence | ]).
    apply NoDup_nil_2.
  - repeat constructor; assumption.
  - rewrite <- (set_heap_heap s) at 1. rewrite <- Eh.
    etrans.
    { unfold demo_acquire, make_unique_int, automatic_ResourceManager.
      do 7 step. pure_step. reflexivity. }
    reflexivity.
Qed.

(** ** Acquire, then release *)



(** X2. Each smart pointer of lines 63-69, destroyed right after it is
    made, leaves the state exactly as it was: [make_shared] takes and
    returns one block, [shared_ptr<int>(new int(v))] two (the object is
    deleted before the control block goes), [make_unique] one. *)
Theorem smart_pointers_round_trip (v : Z) (s : state) :
  exists a c,
    a <> c /\ heap s !! a = None /\ heap s !! c = None /\
    (let* sp := make_shared_int v in shared_ptr_destroy sp) s
    = Ok tt s [EvAcquire ByAllocator a; EvRelease Deallocate a] /\
    (let* p := new_int v in
     let* sp := shared_ptr_adopt p in
     shared_ptr_destroy sp) s
    = Ok tt s [EvAcquire ByNew a; EvAcquire ByAllocator c;
               EvRelease Delete a; EvRelease Deallocate c] /\
    (let* u := make_unique_int v in unique_ptr_destroy u) s
    = Ok tt s [EvAcquire ByNew a; EvRelease Delete a].
Proof.
  remember (heap s) as h eqn:Eh.
  remember (fresh (dom h)) as a eqn:Ea.
  remember (fresh (dom (<[a := Block (Dynamic ByNew) (CInt v)]> h))) as c eqn:Ec.
  pose proof (fresh_unused h) as Fa; rewrite <- Ea in Fa.
  pose proof (fresh_unused (<[a := Block (Dynamic ByNew) (CInt v)]> h)) as Fc.
  rewrite <- Ec in Fc. apply lookup_insert_None in Fc as [Fc Hne].
  exists a, c. split; [ exact Hne | ]. split; [ exact Fa | ]. split; [ exact Fc | ].
  rewrite <- (set_heap_heap s), <- Eh.
  split_and!.
  - erewrite bind_Ok;
      [ | by apply make_shared_int_at
        | eapply shared_ptr_destroy_combined; apply lookup_insert_eq ].
    rewrite delete_insert_id by exact Fa. reflexivity.
  - erewrite bind_Ok; [ | by apply new_int_at | ].
    2:{ eapply bind_Ok; [ by apply shared_ptr_adopt_at | ].
        eapply shared_ptr_destroy_adopted; [ exact Hne | find_block; reflexivity | ].
        find_block. reflexivity. }
    rewrite (delete_insert_ne _ a c) by exact Hne.
    rewrite (delete_insert_id h a) by exact Fa.
    rewrite delete_insert_id by exact Fc. reflexivity.
  - unfold make_unique_int, unique_ptr_destroy.
    erewrite bind_Ok;
      [ | by apply allocate_at
        | eapply release_at; [ apply lookup_insert_eq | reflexivity ] ].
    rewrite delete_insert_id by exact Fa. reflexivity.
Qed.

(** ** When the cleanup section starts *)

Lemma read_field_element a i f st os o v s :
  heap s !! a = Some (Block st (CArray os)) ->
  os !! i = Some o ->
  get_field f o = Some v ->
  read_field (Some a) i f s = Ok v s [EvField a i f].
Proof.
  intros Hl Ho Hf. unfold read_field. rewrite Hl. simpl. by rewrite Ho, Hf.
Qed.

Lemma read_field_past_end a i f st os s :
  heap s !! a = Some (Block st (CArray os)) ->
  os !! i = None ->
  read_field (Some a) i f s = Undefined (NoSuchObject a).
Proof. intros Hl Ho. unfold read_field. rewrite Hl. simpl. by rewrite Ho. Qed.

(** The identifier of a constructed object is never indeterminate: it is
    what the constructor supplies, or else the 5 of line 34. *)
Lemma instanceId_constructed (i : ctor_inits) :
  get_field f_instanceId (construct i) = Some (default 5 (init_instanceId i)).
Proof. unfold construct. by destruct (init_instanceId i). Qed.

(** X3. The routine is its declarations followed by its cleanup section,
    and in the state the cleanup section starts in each of the three
    pointers admits only the release form the routine uses:
    [singleHeapObject] released by [delete[]] or [free],
    [heapObjectArray] by [delete] or [free], [uninitializedMemoryBlock]
    by [delete] or [delete[]] are all undefined. *)
Theorem cleanup_forms_are_forced x p q r s :
  exists l s1 tr1,
    demo_acquire hc dc s = Ok l s1 tr1 /\
    memoryAllocationDemo hc dc x p q r s = bind (demo_acquire hc dc) demo_cleanup s /\
    delete_array (singleHeapObject l) s1 = Undefined (MismatchedRelease ByNew DeleteArray) /\
    free (singleHeapObject l) s1 = Undefined (MismatchedRelease ByNew Free) /\
    delete_object (heapObjectArray l) s1 = Undefined (MismatchedRelease ByNewArray Delete) /\
    free (heapObjectArray l) s1 = Undefined (MismatchedRelease ByNewArray Free) /\
    delete_object (uninitializedMemoryBlock l) s1
    = Undefined (MismatchedRelease ByMalloc Delete) /\
    delete_array (uninitializedMemoryBlock l) s1
    = Undefined (MismatchedRelease ByMalloc DeleteArray).
Proof.
  destruct (demo_acquire_exec s)
    as (a1 & a2 & a3 & a4 & a5 & a6 & a7 & Hnd & _ & Hrun).
  do 3 eexists. split; [ exact Hrun | ]. split; [ apply demo_split | ].
  apart Hnd. unfold delete_object, delete_array, free; simpl.
  split_and!;
    (eapply release_mismatched;
     [ rewrite heap_set_heap; unfold acquired_store; find_block; reflexivity
     | reflexivity ]).
Qed.

(** X4. In that state the members of the objects read as the comments of
    lines 73-83 say: [singleHeapObject] and each of the ten elements of
    [heapObjectArray] have an identifier (5 unless the constructor sets
    another), an index past the tenth element names no object, and every
    member read in [uninitializedMemoryBlock], at any index, is undefined. *)
Theorem members_when_cleanup_starts s :
  exists l s1 tr1 single array raw,
    demo_acquire hc dc s = Ok l s1 tr1 /\
    singleHeapObject l = Some single /\
    heapObjectArray l = Some array /\
    uninitializedMemoryBlock l = Some raw /\
    read_field (Some single) 0 f_instanceId s1
    = Ok (default 5 (init_instanceId (hc 10))) s1 [EvField single 0 f_instanceId] /\
    Forall (fun i => read_field (Some array) i f_instanceId s1
                     = Ok (default 5 (init_instanceId dc)) s1
                          [EvField array i f_instanceId])
           (seq 0 10) /\
    (forall i f, read_field (Some array) (10 + i) f s1 = Undefined (NoSuchObject array)) /\
    (forall i f, read_field (Some raw) i f s1 = Undefined (IndeterminateValue raw)).
Proof.
  destruct (demo_acquire_exec s)
    as (a1 & a2 & a3 & a4 & a5 & a6 & a7 & Hnd & _ & Hrun).
  eexists _, _, _, a5, a6, a7. split; [ exact Hrun | ].
  do 3 (split; [ reflexivity | ]).
  apart Hnd.
  assert (Hb5 : heap (set_heap (acquired_store hc dc a1 a2 a3 a4 a5 a6 a7 (heap s)) s)
               !! a5 = Some (Block (Dynamic ByNew) (CObject (construct (hc 10))))).
  { rewrite heap_set_heap. unfold acquired_store. by find_block. }
  assert (Hb6 : heap (set_heap (acquired_store hc dc a1 a2 a3 a4 a5 a6 a7 (heap s)) s)
               !! a6 = Some (Block (Dynamic ByNewArray)
                                   (CArray (replicate 10 (construct dc))))).
  { rewrite heap_set_heap. unfold acquired_store. by find_block. }
  assert (Hb7 : heap (set_heap (acquired_store hc dc a1 a2 a3 a4 a5 a6 a7 (heap s)) s)
               !! a7 = Some (Block (Dynamic ByMalloc) (CRaw 80))).
  { rewrite heap_set_heap. unfold acquired_store. by find_block. }
  split_and!.
  - eapply read_field_object; [ exact Hb5 | apply instanceId_constructed ].
  - apply Forall_forall. intros i Hi. apply elem_of_seq in Hi.
    eapply read_field_element;
      [ exact Hb6 | apply lookup_replicate_2; clear -Hi; lia
      | apply instanceId_constructed ].
  - intros i f. eapply read_field_past_end; [ exact Hb6 | ].
    apply lookup_replicate_None. clear. lia.
  - intros i f. eapply read_field_raw. exact Hb7.
Qed.

(** ** Call after call *)

(** X5. Any number of calls, with any arguments, from any state: all of
    them return, the store afterwards is the store before, the trace of
    the whole sequence replays to no outstanding block, it holds no load,
    store or member read, and four creations a call. *)
Theorem repeated_calls_leave_nothing (cs : list call) (s : state) :
  exists s' tr,
    invoke_all hc dc cs s = Ok tt s' tr /\
    heap s' = heap s /\
    outstanding tr ∅ = Some ∅ /\
    accesses tr = [] /\
    length (creations tr) = (4 * length cs)%nat.
Proof.
  revert s. induction cs as [|c cs IH]; intros s.
  - exists s, []. by split_and!.
  - destruct (demo_trace_pairing hc dc (stackCopyParam c) (readOnlyDataPtr c)
                (fixedAddressPtr c) (referenceAlias c) s)
      as (a1 & a2 & a3 & a4 & a5 & a6 & a7 & s1 & H).
    cbv zeta in H.
    destruct H as (Hrun & _ & _ & _ & _ & _ & _ & Hout & Hheap & _).
    destruct (IH s1) as (s2 & tr2 & Hrest & Hheap2 & Hout2 & Hacc2 & Hcr2).
    exists s2. eexists. split_and!.
    + change (invoke_all hc dc (c :: cs))
        with (bind (invoke hc dc c) (fun _ => invoke_all hc dc cs)).
      eapply bind_Ok; [ exact Hrun | exact Hrest ].
    + by rewrite Hheap2.
    + by rewrite outstanding_app, Hout.
    + by rewrite accesses_app, Hacc2.
    + rewrite creations_app, length_app, Hcr2. simpl. lia.
Qed.

End Phases.

(** ** Who may name what *)


(** ** Automatic arrays in general *)

(** X7. An array declared with [n] elements and an initializer list no
    longer than [n] has [n] elements; subscript [i] yields the [i]-th
    initializer, zero past the list, and is undefined from [n] on. *)
Theorem array_init_subscript (n : nat) (inits : list Z) (i : nat) (s : state) :
  (length inits <= n)%nat ->
  length (array_init n inits) = n /\
  subscript (array_init n inits) i s
  = if decide (i < n)%nat then Ok (nth i inits 0) s [] else Undefined OutOfBounds.
Proof.
  intros Hlen. split; [ apply array_init_length | ].
  unfold subscript, array_init.
  destruct (decide (i < n)%nat) as [Hi|Hi].
  - rewrite lookup_take_lt by lia. rewrite nth_lookup.
    destruct (decide (i < length inits)%nat) as [Hin|Hin].
    + rewrite lookup_app_l by lia.
      destruct (lookup_lt_is_Some_2 inits i Hin) as [v Hv]. by rewrite Hv.
    + rewrite lookup_app_r by lia.
      rewrite lookup_replicate_2 by lia.
      by rewrite (lookup_ge_None_2 inits i) by lia.
  - by rewrite lookup_take_ge by lia.
Qed.

Lemma array_init_subscript_witness :
  (length sample_initializers <= 5)%nat /\
  length (array_init 5 sample_initializers) = 5%nat /\
  subscript (array_init 5 sample_initializers) 4 (initial_state 0 0 sample_objects)
  = if decide (4 < 5)%nat
    then Ok (nth 4 sample_initializers 0) (initial_state 0 0 sample_objects) []
    else Undefined OutOfBounds.
Proof.
  split; [ vm_compute; lia | ].
  apply (array_init_subscript 5 sample_initializers 4).
  vm_compute; lia.
Defined.
